(** * Python-ToDo: the item record, the list container and its persistence

    A shallow embedding of [todo.py].  Python attributes are untyped, and
    [TodoItem.from_dict] stores whatever the file holds, so the fields of an
    item are Python values, not Rocq integers and strings.  Methods of
    [TodoList] mutate the object and the file [todo_data.json]; they are
    functions in a state-and-exception monad over the pair of the two.  The
    file is kept as the document it encodes: [json.dump] and [json.load]
    belong to the Python library and are taken to be each other's inverse. *)

From Stdlib Require Import ZArith String Ascii List Lia DecimalString.
From stdpp Require Import base option list sorting strings.

#[local] Set Warnings "-register-all".
Local Open Scope Z_scope.

(** ** Python values

    The values [json.load] produces and [json.dump] accepts: [None], booleans,
    integers, strings, lists and dictionaries with string keys, the latter in
    insertion order.  Numbers with a fraction or an exponent are left out. *)

Inductive value : Type :=
  | VNone
  | VBool (b : bool)
  | VInt (n : Z)
  | VStr (s : string)
  | VList (l : list value)
  | VDict (d : list (string * value)).

Inductive exn : Type :=
  | KeyError
  | TypeError
  | AttributeError
  | JSONDecodeError
  | FileNotFoundError.

Global Instance exn_eq_dec : EqDecision exn.
Proof. solve_decision. Defined.

(** A computation that returns or raises. *)
Inductive result (A : Type) : Type :=
  | Ok (a : A)
  | Raise (e : exn).
Arguments Ok {A} a.
Arguments Raise {A} e.

Global Instance result_ret : MRet result := fun _ a => Ok a.
Global Instance result_bind : MBind result := fun _ _ k r =>
  match r with
  | Ok a => k a
  | Raise e => Raise e
  end.

(** [[f(x) for x in xs]]: the first exception ends the comprehension. *)
Fixpoint comprehension {A B} (f : A -> result B) (xs : list A) : result (list B) :=
  match xs with
  | [] => Ok []
  | x :: xs' =>
      y ← f x; ys ← comprehension f xs'; Ok (y :: ys)
  end.

(** bool is a subclass of int: [True] counts as 1 and [False] as 0. *)
Definition int_of_bool (b : bool) : Z := if b then 1 else 0.

(** [v == n] for an integer [n]. *)
Definition py_eq_int (v : value) (n : Z) : bool :=
  match v with
  | VInt m => m =? n
  | VBool b => int_of_bool b =? n
  | _ => false
  end.

(** [bool(v)], the test an [if] applies to a value. *)
Definition truthy (v : value) : bool :=
  match v with
  | VNone => false
  | VBool b => b
  | VInt n => negb (n =? 0)
  | VStr s => negb (String.eqb s "")
  | VList l => match l with [] => false | _ => true end
  | VDict d => match d with [] => false | _ => true end
  end.

(** [v + n] for an integer [n]; used by [self.next_id += 1]. *)
Definition py_add_int (v : value) (n : Z) : result value :=
  match v with
  | VInt m => Ok (VInt (m + n))
  | VBool b => Ok (VInt (int_of_bool b + n))
  | _ => Raise TypeError
  end.

(** Lookup in a dictionary kept as an association list. *)
Fixpoint dict_lookup (k : string) (d : list (string * value)) : option value :=
  match d with
  | [] => None
  | (k', v) :: d' => if String.eqb k k' then Some v else dict_lookup k d'
  end.

(** [v[k]] for a string key [k]: a dictionary answers or raises [KeyError];
    a list or a string wants an integer index, the rest is not
    subscriptable. *)
Definition subscript (v : value) (k : string) : result value :=
  match v with
  | VDict d =>
      match dict_lookup k d with
      | Some x => Ok x
      | None => Raise KeyError
      end
  | _ => Raise TypeError
  end.

(** [v.get(k, default)]. *)
Definition dict_get (v : value) (k : string) (default : value) : result value :=
  match v with
  | VDict d => Ok (from_option (fun x => x) default (dict_lookup k d))
  | _ => Raise AttributeError
  end.

(** [for x in v]: a list yields its elements, a dictionary its keys, a string
    its characters as strings (here one per byte); the rest is not
    iterable. *)
Definition py_iter (v : value) : result (list value) :=
  match v with
  | VList l => Ok l
  | VDict d => Ok (map (fun kv => VStr (fst kv)) d)
  | VStr s => Ok (map (fun c => VStr (String c EmptyString)) (list_ascii_of_string s))
  | _ => Raise TypeError
  end.

(** ** TodoItem *)

Record TodoItem : Type := mkTodoItem {
  id : value;
  title : value;
  description : value;
  due_date : value;
  priority : value;   (* 1: High, 2: Medium, 3: Low *)
  completed : value
}.

Definition to_dict (self : TodoItem) : value :=
  VDict [ ("id", id self);
          ("title", title self);
          ("description", description self);
          ("due_date", due_date self);
          ("priority", priority self);
          ("completed", completed self) ].

Definition from_dict (data : value) : result TodoItem :=
  i ← subscript data "id";
  t ← subscript data "title";
  d ← dict_get data "description" (VStr "");
  due ← dict_get data "due_date" VNone;
  p ← dict_get data "priority" (VInt 3);
  c ← dict_get data "completed" (VBool false);
  Ok (mkTodoItem i t d due p c).

(** The literal [{1: "High", 2: "Medium", 3: "Low"}] of [__str__]. *)
Definition priority_map : list (Z * string) :=
  [ (1, "High"); (2, "Medium"); (3, "Low") ].

Fixpoint int_dict_lookup (k : Z) (d : list (Z * string)) : option string :=
  match d with
  | [] => None
  | (k', s) :: d' => if k =? k' then Some s else int_dict_lookup k d'
  end.

(** [d[v]] on a dictionary with integer keys: a list or a dictionary is not
    hashable, a boolean hashes and compares as its integer, a string or
    [None] equals no key. *)
Definition int_dict_subscript (d : list (Z * string)) (v : value) : result string :=
  match v with
  | VInt n => match int_dict_lookup n d with Some s => Ok s | None => Raise KeyError end
  | VBool b =>
      match int_dict_lookup (int_of_bool b) d with Some s => Ok s | None => Raise KeyError end
  | VNone | VStr _ => Raise KeyError
  | VList _ | VDict _ => Raise TypeError
  end.

Definition decimal (n : Z) : string := NilZero.string_of_int (Z.to_int n).

Section Rendering.
(** [repr] of a list or a dictionary is the interpreter's business. *)
Variable py_repr : value -> string.

(** [str(v)], what an f-string substitutes for [{v}]. *)
Definition py_str (v : value) : string :=
  match v with
  | VNone => "None"
  | VBool b => if b then "True" else "False"
  | VInt n => decimal n
  | VStr s => s
  | VList _ | VDict _ => py_repr v
  end.

Definition __str__ (self : TodoItem) : result string :=
  let status := if truthy (completed self) then "✓" else "✗" in
  let due := if truthy (due_date self)
             then " | Due: " +:+ py_str (due_date self) else "" in
  label ← int_dict_subscript priority_map (priority self);
  Ok (py_str (id self) +:+ ". [" +:+ status +:+ "] " +:+ py_str (title self)
      +:+ due +:+ " | Priority: " +:+ label
      +:+ String "010" "   " +:+ py_str (description self)).
End Rendering.

(** ** TodoList and the file behind it *)

Record TodoList : Type := mkTodoList {
  todos : list TodoItem;
  next_id : value
}.

(** What [TODO_FILE] holds: text that [json.load] rejects, or a document. *)
Inductive file : Type :=
  | Garbage
  | Json (data : value).

(** The object a method runs on and the file system around it; [disk] is
    [None] while [todo_data.json] does not exist. *)
Record world : Type := mkWorld {
  self : TodoList;
  disk : option file
}.

(** A method: it returns or raises, and leaves object and file as they are at
    that moment. *)
Definition M (A : Type) : Type := world -> result A * world.

Global Instance M_ret : MRet M := fun _ a w => (Ok a, w).
Global Instance M_bind : MBind M := fun _ _ k m w =>
  match m w with
  | (Ok a, w') => k a w'
  | (Raise e, w') => (Raise e, w')
  end.

Definition lift {A} (r : result A) : M A := fun w => (r, w).
Definition get_self : M TodoList := fun w => (Ok (self w), w).
Definition set_todos (l : list TodoItem) : M unit := fun w =>
  (Ok tt, mkWorld (mkTodoList l (next_id (self w))) (disk w)).
Definition set_next_id (n : value) : M unit := fun w =>
  (Ok tt, mkWorld (mkTodoList (todos (self w)) n) (disk w)).

(** [os.path.exists(TODO_FILE)] *)
Definition path_exists : M bool := fun w =>
  (Ok (match disk w with Some _ => true | None => false end), w).

(** [json.load] on the opened file. *)
Definition json_load : M value := fun w =>
  match disk w with
  | None => (Raise FileNotFoundError, w)
  | Some Garbage => (Raise JSONDecodeError, w)
  | Some (Json data) => (Ok data, w)
  end.

(** [json.dump] into the file opened with mode ["w"]. *)
Definition json_dump (data : value) : M unit := fun w =>
  (Ok tt, mkWorld (self w) (Some (Json data))).

(** [try: body except classes: handler] *)
Definition try_except {A} (body : M A) (classes : list exn) (handler : M A) : M A :=
  fun w =>
    match body w with
    | (Raise e, w') =>
        if bool_decide (e ∈ classes) then handler w' else (Raise e, w')
    | r => r
    end.

(** The dictionary [save_data] builds from the object. *)
Definition document (s : TodoList) : value :=
  VDict [ ("todos", VList (map to_dict (todos s)));
          ("next_id", next_id s) ].

Definition save_data : M unit :=
  s ← get_self;
  let data := document s in
  json_dump data.

Definition load_data : M unit :=
  there ← path_exists;
  if negb there then mret tt else
  try_except
    (data ← json_load;
     stored ← lift (subscript data "todos");
     records ← lift (py_iter stored);
     items ← lift (comprehension from_dict records);
     set_todos items;;
     n ← lift (subscript data "next_id");
     set_next_id n)
    [JSONDecodeError; FileNotFoundError]
    (* Handle corrupt or missing file *)
    (set_todos [];; set_next_id (VInt 1)).

(** [TodoList()]: the constructor, run against the file system [d]. *)
Definition new_TodoList (d : option file) : result unit * world :=
  load_data (mkWorld (mkTodoList [] (VInt 1)) d).

(** [item.id == item_id] *)
Definition has_id (item_id : Z) (item : TodoItem) : Prop :=
  py_eq_int (id item) item_id = true.

Global Instance has_id_dec item_id item : Decision (has_id item_id item).
Proof. unfold has_id. apply _. Defined.

Definition add_item (title description due_date priority : value) : M TodoItem :=
  s ← get_self;
  let new_item := mkTodoItem (next_id s) title description due_date priority (VBool false) in
  set_todos (todos s ++ [new_item]);;
  n ← lift (py_add_int (next_id s) 1);
  set_next_id n;;
  save_data;;
  mret new_item.

Definition remove_item (item_id : Z) : M bool :=
  s ← get_self;
  match list_find (has_id item_id) (todos s) with
  | Some (i, _) =>
      set_todos (delete i (todos s));;
      save_data;;
      mret true
  | None => mret false
  end.

(** [item.completed = True] *)
Definition set_completed (item : TodoItem) : TodoItem :=
  mkTodoItem (id item) (title item) (description item) (due_date item)
             (priority item) (VBool true).

Definition complete_item (item_id : Z) : M bool :=
  s ← get_self;
  match list_find (has_id item_id) (todos s) with
  | Some (i, item) =>
      set_todos (<[i := set_completed item]> (todos s));;
      save_data;;
      mret true
  | None => mret false
  end.

Definition get_item (item_id : Z) : M (option TodoItem) :=
  s ← get_self;
  mret (snd <$> list_find (has_id item_id) (todos s)).

Definition list_items (show_completed : bool) : M (list TodoItem) :=
  s ← get_self;
  if show_completed then mret (todos s)
  else mret (filter (fun item => ¬ Is_true (truthy (completed item))) (todos s)).

(** ** Sessions

    A caller's successive calls on one object; the first exception ends the
    session, as it would end a script. *)

Inductive call : Type :=
  | Add (title description due_date priority : value)
  | Remove (item_id : Z)
  | Complete (item_id : Z).

Inductive reply : Type :=
  | Item (item : TodoItem)
  | Flag (b : bool).

Definition perform (c : call) : M reply :=
  match c with
  | Add t d due p => item ← add_item t d due p; mret (Item item)
  | Remove i => b ← remove_item i; mret (Flag b)
  | Complete i => b ← complete_item i; mret (Flag b)
  end.

Fixpoint session (cs : list call) : M (list reply) :=
  match cs with
  | [] => mret []
  | c :: cs' => r ← perform c; rs ← session cs'; mret (r :: rs)
  end.

(** The ids of the items the adds of a session returned, in order. *)
Definition issued (rs : list reply) : list value :=
  omap (fun r => match r with Item item => Some (id item) | Flag _ => None end) rs.

(** How many adds a session holds. *)
Fixpoint adds (cs : list call) : nat :=
  match cs with
  | [] => 0%nat
  | Add _ _ _ _ :: cs' => S (adds cs')
  | _ :: cs' => adds cs'
  end.

(** The object as [__init__] sets it up before it looks at the file. *)
Definition blank : TodoList := mkTodoList [] (VInt 1).

(** The state of the object and the file after a save. *)
Definition saved (s : TodoList) : world := mkWorld s (Some (Json (document s))).

Definition absent (item_id : Z) (l : list TodoItem) : Prop :=
  Forall (fun item => ¬ has_id item_id item) l.

(** A stored record with only the two required fields. *)
Definition bare (i : Z) (t : string) : value :=
  VDict [ ("id", VInt i); ("title", VStr t) ].

(** A file in which two records carry the id 1. *)
Definition twins : value :=
  VDict [ ("todos", VList [bare 1 "first"; bare 1 "second"]);
          ("next_id", VInt 3) ].

(** A file without a repeated id whose counter was not moved past its
    record. *)
Definition stale : value :=
  VDict [ ("todos", VList [bare 1 "first"]); ("next_id", VInt 1) ].

(** A file whose only record has a priority that is no key of
    [priority_map]. *)
Definition urgent : value :=
  VDict [ ("todos", VList [VDict [("id", VInt 1); ("title", VStr "tax");
                                  ("priority", VInt 7)]]);
          ("next_id", VInt 2) ].

(** The counter stands at [n], and the ids in the list are distinct integers
    from 1 up to [n - 1]. *)
Definition counted (n : Z) (s : TodoList) : Prop :=
  1 ≤ n
  ∧ next_id s = VInt n
  ∧ ∃ zs, id <$> todos s = VInt <$> zs ∧ NoDup zs ∧ Forall (fun z => 1 ≤ z < n) zs.

(** No id occurs twice: whichever item answers to [item_id], none before it
    and none after it does. *)
Definition unique_ids (l : list TodoItem) : Prop :=
  ∀ item_id l1 x l2,
    l = l1 ++ x :: l2 -> has_id item_id x -> absent item_id l1 ∧ absent item_id l2.

(** ** The command line

    [display_todos] and [main] print.  A process is the list object, the
    file and what has been written to standard output so far, one entry per
    call of [print]. *)

Inductive output : Type :=
  | Print (line : string)
  (* [print(f"An error occurred: {str(e)}")]; the text of [str(e)] is the
     interpreter's and is not kept, the exception is. *)
  | PrintError (e : exn).

Record process : Type := mkProcess {
  mem : world;
  stdout : list output
}.

Definition IO (A : Type) : Type := process -> result A * process.

Global Instance IO_ret : MRet IO := fun _ a p => (Ok a, p).
Global Instance IO_bind : MBind IO := fun _ _ k m p =>
  match m p with
  | (Ok a, p') => k a p'
  | (Raise e, p') => (Raise e, p')
  end.

(** A method of the list, called from the command line. *)
Definition call_method {A} (m : M A) : IO A := fun p =>
  let (r, w) := m (mem p) in (r, mkProcess w (stdout p)).

Definition lift_io {A} (r : result A) : IO A := fun p => (r, p).

Definition print (line : string) : IO unit := fun p =>
  (Ok tt, mkProcess (mem p) (stdout p ++ [Print line])).

(** [s * n] on a string. *)
Fixpoint str_mul (s : string) (n : nat) : string :=
  match n with
  | O => EmptyString
  | S n' => s +:+ str_mul s n'
  end.

(** What [parse_args] hands to [main]: the subcommand and its arguments.
    [argparse] converts ids and the priority with [int], leaves the due date
    [None] when the option is not given, and the description empty. *)
Inductive command : Type :=
  | CmdAdd (title description : string) (due_date : option string) (priority : Z)
  | CmdList (all : bool)
  | CmdComplete (item_id : Z)
  | CmdRemove (item_id : Z)
  | CmdView (item_id : Z).

Section CommandLine.
(** [repr] of a list or a dictionary, as in [__str__]. *)
Variable py_repr : value -> string.
(** Whether [datetime.strptime(s, "%Y-%m-%d")] returns rather than raises
    [ValueError]. *)
Variable strptime_ok : string -> bool.

(** [for item in todos: print(item)] *)
Fixpoint print_items (l : list TodoItem) : IO unit :=
  match l with
  | [] => mret tt
  | item :: l' =>
      line ← lift_io (__str__ py_repr item);
      print line;;
      print_items l'
  end.

Definition display_todos (show_completed : bool) : IO unit :=
  l ← call_method (list_items show_completed);
  match l with
  | [] => print "No todo items found."
  | _ =>
      print (String "010" "To-Do List:");;
      print (str_mul "=" 50);;
      print_items l;;
      print (str_mul "=" 50)
  end.

(** The body of the [try] in [main]. *)
Definition dispatch (args : command) : IO unit :=
  match args with
  | CmdAdd t d due p =>
      let add :=
        new_item ← call_method
          (add_item (VStr t) (VStr d) (from_option VStr VNone due) (VInt p));
        print ("Added new todo item (ID: " +:+ py_str py_repr (id new_item)
               +:+ "): " +:+ py_str py_repr (title new_item)) in
      (* Validate due date format if provided *)
      let invalid :=
        match due with
        | Some s => truthy (VStr s) && negb (strptime_ok s)
        | None => false
        end in
      if invalid
      then print "Error: Invalid date format. Please use YYYY-MM-DD."
      else add
  | CmdList all => display_todos all
  | CmdComplete i =>
      found ← call_method (complete_item i);
      if found : bool
      then print ("Marked item " +:+ decimal i +:+ " as completed.")
      else print ("Error: Item with ID " +:+ decimal i +:+ " not found.")
  | CmdRemove i =>
      found ← call_method (remove_item i);
      if found : bool
      then print ("Removed item with ID " +:+ decimal i +:+ ".")
      else print ("Error: Item with ID " +:+ decimal i +:+ " not found.")
  | CmdView i =>
      item ← call_method (get_item i);
      match item with
      | Some item =>
          print (String "010" "Todo Item Details:");;
          print (str_mul "=" 50);;
          line ← lift_io (__str__ py_repr item);
          print line;;
          print (str_mul "=" 50)
      | None => print ("Error: Item with ID " +:+ decimal i +:+ " not found.")
      end
  end.

(** [main()] on the parsed arguments, started with the file [d] and an empty
    output.  The list is built before the [try], so an exception of the
    constructor leaves [main]; one raised by the command is caught and
    reported. *)
Definition main (args : command) (d : option file) : result unit * process :=
  match new_TodoList d with
  | (Raise e, w) => (Raise e, mkProcess w [])
  | (Ok _, w) =>
      match dispatch args (mkProcess w []) with
      | (Raise e, p) => (Ok tt, mkProcess (mem p) (stdout p ++ [PrintError e]))
      | (Ok _, p) => (Ok tt, p)
      end
  end.
End CommandLine.

(** The list in memory is what the constructor would build from the file. *)
Definition recoverable (w : world) : Prop :=
  new_TodoList (disk w) = (Ok tt, w).

(** An item that [__str__] can render. *)
Definition renderable (item : TodoItem) : Prop :=
  ∃ p, 1 ≤ p ≤ 3 ∧ py_eq_int (priority item) p = true.

(** The counter stands at [n], and the ids in the list are integers below
    [n] in strictly increasing order. *)
Definition ascending (n : Z) (s : TodoList) : Prop :=
  next_id s = VInt n
  ∧ ∃ zs, id <$> todos s = VInt <$> zs
          ∧ StronglySorted Z.lt zs ∧ Forall (fun z => z < n) zs.

(** [line] is what [print(item)] writes. *)
Definition renders (py_repr : value -> string) (item : TodoItem) (line : string) : Prop :=
  __str__ py_repr item = Ok line.

(** [not item.completed], the test of [list_items]. *)
Definition pending (item : TodoItem) : Prop := ¬ truthy (completed item).

(** ** Each method in closed form *)

Lemma save_data_eq (w : world) : save_data w = (Ok tt, saved (self w)).
Proof. reflexivity. Qed.

Lemma add_item_eq (t d due p : value) (w : world) :
  let item := mkTodoItem (next_id (self w)) t d due p (VBool false) in
  let l := todos (self w) ++ [item] in
  add_item t d due p w =
    match py_add_int (next_id (self w)) 1 with
    | Ok n => (Ok item, saved (mkTodoList l n))
    | Raise e => (Raise e, mkWorld (mkTodoList l (next_id (self w))) (disk w))
    end.
Proof.
  unfold add_item, mbind, M_bind, lift; simpl.
  destruct (py_add_int (next_id (self w)) 1); reflexivity.
Qed.

Lemma remove_item_eq (item_id : Z) (w : world) :
  remove_item item_id w =
    match list_find (has_id item_id) (todos (self w)) with
    | Some (i, _) =>
        (Ok true, saved (mkTodoList (delete i (todos (self w))) (next_id (self w))))
    | None => (Ok false, w)
    end.
Proof.
  unfold remove_item, mbind, M_bind; simpl.
  destruct (list_find _ _) as [[i x]|]; reflexivity.
Qed.

Lemma complete_item_eq (item_id : Z) (w : world) :
  complete_item item_id w =
    match list_find (has_id item_id) (todos (self w)) with
    | Some (i, item) =>
        (Ok true,
         saved (mkTodoList (<[i := set_completed item]> (todos (self w)))
                           (next_id (self w))))
    | None => (Ok false, w)
    end.
Proof.
  unfold complete_item, mbind, M_bind; simpl.
  destruct (list_find _ _) as [[i x]|]; reflexivity.
Qed.

Lemma get_item_eq (item_id : Z) (w : world) :
  get_item item_id w = (Ok (snd <$> list_find (has_id item_id) (todos (self w))), w).
Proof. reflexivity. Qed.

(** ** Scanning for an id *)

Lemma find_first (item_id : Z) (l1 l2 : list TodoItem) (x : TodoItem) :
  absent item_id l1 -> has_id item_id x ->
  list_find (has_id item_id) (l1 ++ x :: l2) = Some (length l1, x).
Proof.
  intros Hl1 Hx. apply list_find_Some. split_and!.
  - by rewrite list_lookup_middle.
  - done.
  - intros j y Hj Hlt. rewrite lookup_app_l in Hj by done.
    eapply Forall_lookup_1 in Hl1; eauto.
Qed.

Lemma find_none (item_id : Z) (l : list TodoItem) :
  absent item_id l -> list_find (has_id item_id) l = None.
Proof. intros. by apply list_find_None. Qed.

(** An id that occurs splits the list at its first occurrence. *)
Lemma first_occurrence (item_id : Z) (l : list TodoItem) :
  Exists (has_id item_id) l ->
  ∃ l1 x l2, l = l1 ++ x :: l2 ∧ absent item_id l1 ∧ has_id item_id x.
Proof.
  induction l as [|y l IH]; intros Hex; [by inversion Hex|].
  destruct (decide (has_id item_id y)) as [Hy|Hy].
  - exists [], y, l. split_and!; [done|constructor|done].
  - apply Exists_inv in Hex as [?|Hex]; [done|].
    destruct (IH Hex) as (l1 & x & l2 & -> & Hl1 & Hx).
    exists (y :: l1), x, l2. split_and!; [done|by constructor|done].
Qed.

Lemma not_Exists_absent (item_id : Z) (l : list TodoItem) :
  ¬ Exists (has_id item_id) l -> absent item_id l.
Proof. intros H. by apply not_Exists_Forall in H; [|apply _]. Qed.

(** ** Conversions of an item *)

Lemma from_dict_to_dict (item : TodoItem) : from_dict (to_dict item) = Ok item.
Proof. by destruct item. Qed.

Lemma comprehension_to_dict (l : list TodoItem) :
  comprehension from_dict (map to_dict l) = Ok l.
Proof.
  induction l as [|item l IH]; [done|].
  cbn [comprehension map]. rewrite from_dict_to_dict.
  unfold mbind at 1, result_bind at 1. by rewrite IH.
Qed.

Lemma load_document (s : TodoList) :
  new_TodoList (Some (Json (document s))) = (Ok tt, saved s).
Proof.
  destruct s as [l n].
  unfold new_TodoList, load_data, try_except, mbind, M_bind, lift; simpl.
  by rewrite comprehension_to_dict.
Qed.

(** What [load_data] lets through: the two lookups on the document and the
    conversion of each record raise out of the constructor. *)
Lemma load_without_todos (d : list (string * value)) :
  dict_lookup "todos" d = None ->
  new_TodoList (Some (Json (VDict d)))
  = (Raise KeyError, mkWorld blank (Some (Json (VDict d)))).
Proof.
  intros Hd. unfold new_TodoList, load_data, try_except, mbind, M_bind, lift.
  simpl. by rewrite Hd.
Qed.

Lemma load_without_next_id (d : list (string * value)) (l : list TodoItem) :
  dict_lookup "todos" d = Some (VList (map to_dict l)) ->
  dict_lookup "next_id" d = None ->
  new_TodoList (Some (Json (VDict d)))
  = (Raise KeyError, mkWorld (mkTodoList l (VInt 1)) (Some (Json (VDict d)))).
Proof.
  intros Ht Hn. unfold new_TodoList, load_data, try_except, mbind, M_bind, lift.
  simpl. rewrite Ht. simpl. rewrite comprehension_to_dict. simpl. by rewrite Hn.
Qed.

Lemma load_not_a_dictionary (data : value) :
  (∀ d, data ≠ VDict d) ->
  new_TodoList (Some (Json data)) = (Raise TypeError, mkWorld blank (Some (Json data))).
Proof.
  intros Hd. destruct data; try done. by destruct (Hd d).
Qed.

(** C1, where the code departs from the claim.  A missing file leaves the
    new list empty with [next_id = 1], and so does a file that is not JSON;
    but a file that is JSON and lacks ["todos"] or ["next_id"], or holds a
    record without ["id"] or ["title"], makes the constructor raise
    [KeyError], which the [except] clause of [load_data] does not name. *)
Theorem C1_missing_structure_raises :
  new_TodoList None = (Ok tt, mkWorld blank None)
  ∧ new_TodoList (Some Garbage) = (Ok tt, mkWorld blank (Some Garbage))
  ∧ fst (new_TodoList (Some (Json (VDict [("next_id", VInt 1)])))) = Raise KeyError
  ∧ fst (new_TodoList (Some (Json (VDict [("todos", VList [])])))) = Raise KeyError
  ∧ fst (new_TodoList (Some (Json (VDict
      [("todos", VList [VDict [("title", VStr "milk")]]); ("next_id", VInt 2)]))))
    = Raise KeyError
  ∧ fst (new_TodoList (Some (Json (VDict
      [("todos", VList [VDict [("id", VInt 1)]]); ("next_id", VInt 2)]))))
    = Raise KeyError.
Proof. by split_and!. Qed.

(** C2: saving a list and constructing a list from the file just written
    gives back the same items, field by field and in the same order, and the
    same [next_id], whatever the list and the previous file were. *)
Theorem C2_save_then_load (s : TodoList) (d : option file) :
  ∃ w, save_data (mkWorld s d) = (Ok tt, w)
       ∧ new_TodoList (disk w) = (Ok tt, mkWorld s (disk w)).
Proof.
  exists (saved s). split; [done|]. apply load_document.
Qed.

(** C8: on a record that has ["id"] and ["title"], [from_dict] returns an item
    whose id and title are the stored ones and whose other fields are the
    stored value when the key is there and otherwise the default: the empty
    string for the description, [None] for the due date, 3 for the priority
    (which [priority_map] labels Low) and [False] for the completion flag. *)
Theorem C8_from_dict_defaults (d : list (string * value)) (i t : value) :
  dict_lookup "id" d = Some i ->
  dict_lookup "title" d = Some t ->
  ∃ item, from_dict (VDict d) = Ok item
    ∧ id item = i
    ∧ title item = t
    ∧ description item = default (VStr "") (dict_lookup "description" d)
    ∧ due_date item = default VNone (dict_lookup "due_date" d)
    ∧ priority item = default (VInt 3) (dict_lookup "priority" d)
    ∧ completed item = default (VBool false) (dict_lookup "completed" d)
    ∧ int_dict_subscript priority_map (VInt 3) = Ok "Low".
Proof.
  intros Hi Ht. unfold from_dict, subscript, dict_get, mbind, result_bind.
  rewrite Hi, Ht. eexists. split; [reflexivity|]. simpl.
  split_and!; try reflexivity;
    by destruct (dict_lookup _ d).
Qed.

Lemma C8_from_dict_defaults_witness :
  ∃ item, from_dict (bare 4 "milk") = Ok item
    ∧ id item = VInt 4
    ∧ title item = VStr "milk"
    ∧ description item = VStr ""
    ∧ due_date item = VNone
    ∧ priority item = VInt 3
    ∧ completed item = VBool false
    ∧ int_dict_subscript priority_map (VInt 3) = Ok "Low".
Proof.
  exact (C8_from_dict_defaults [("id", VInt 4); ("title", VStr "milk")]
           (VInt 4) (VStr "milk") eq_refl eq_refl).
Defined.

(** ** Lookup, completion and removal act on the first match *)

Lemma insert_middle {A} (l1 l2 : list A) (x y : A) :
  <[length l1 := y]> (l1 ++ x :: l2) = l1 ++ y :: l2.
Proof. induction l1 as [|z l1 IH]; [done|]. simpl. by rewrite IH. Qed.

Section FirstMatch.
Context (w : world) (item_id : Z) (l1 l2 : list TodoItem) (x : TodoItem).
Hypothesis Hsplit : todos (self w) = l1 ++ x :: l2.
Hypothesis Hbefore : absent item_id l1.
Hypothesis Hhere : has_id item_id x.

Lemma get_item_first : get_item item_id w = (Ok (Some x), w).
Proof using Hsplit Hbefore Hhere.
  rewrite get_item_eq, Hsplit, find_first by done. done.
Qed.

Lemma remove_item_first :
  remove_item item_id w = (Ok true, saved (mkTodoList (l1 ++ l2) (next_id (self w)))).
Proof using Hsplit Hbefore Hhere.
  rewrite remove_item_eq, Hsplit, find_first by done.
  by rewrite delete_middle.
Qed.

Lemma complete_item_first :
  complete_item item_id w =
    (Ok true, saved (mkTodoList (l1 ++ set_completed x :: l2) (next_id (self w)))).
Proof using Hsplit Hbefore Hhere.
  rewrite complete_item_eq, Hsplit, find_first by done.
  by rewrite insert_middle.
Qed.
End FirstMatch.

Lemma get_item_absent (w : world) (item_id : Z) :
  absent item_id (todos (self w)) -> get_item item_id w = (Ok None, w).
Proof. intros H. by rewrite get_item_eq, find_none. Qed.

Lemma remove_item_absent (w : world) (item_id : Z) :
  absent item_id (todos (self w)) -> remove_item item_id w = (Ok false, w).
Proof. intros H. by rewrite remove_item_eq, find_none. Qed.

Lemma has_id_set_completed (item_id : Z) (x : TodoItem) :
  has_id item_id (set_completed x) ↔ has_id item_id x.
Proof. done. Qed.

(** ** The counter and the ids in the list *)

Lemma counted_blank : counted 1 blank.
Proof. split_and!; [done..|]. exists []. split_and!; [done|constructor|constructor]. Qed.

Lemma counted_add (n : Z) (s : TodoList) (t d due p : value) :
  counted n s ->
  counted (n + 1)
    (mkTodoList (todos s ++ [mkTodoItem (VInt n) t d due p (VBool false)]) (VInt (n + 1))).
Proof.
  intros (Hpos & Hn & zs & Hzs & Hnd & Hlt). split_and!; [lia|done|].
  exists (zs ++ [n]). simpl. rewrite !fmap_app, Hzs. split_and!.
  - done.
  - apply NoDup_app. split_and!; [done| |apply NoDup_singleton].
    intros z Hz ->%list_elem_of_singleton.
    rewrite Forall_forall in Hlt. specialize (Hlt _ Hz). lia.
  - apply Forall_app. split.
    + eapply Forall_impl; [done|]. simpl. lia.
    + apply Forall_singleton. lia.
Qed.

Lemma counted_delete (n : Z) (s : TodoList) (i : nat) :
  counted n s -> counted n (mkTodoList (delete i (todos s)) (next_id s)).
Proof.
  intros (Hpos & Hn & zs & Hzs & Hnd & Hlt). split_and!; [done..|].
  exists (delete i zs). simpl. rewrite !list_fmap_delete, Hzs. split_and!.
  - done.
  - eapply sublist_NoDup; [done|apply sublist_delete].
  - by apply Forall_delete.
Qed.

Lemma counted_complete (n : Z) (s : TodoList) (i : nat) (x : TodoItem) :
  todos s !! i = Some x ->
  counted n s ->
  counted n (mkTodoList (<[i := set_completed x]> (todos s)) (next_id s)).
Proof.
  intros Hi (Hpos & Hn & zs & Hzs & Hnd & Hlt). split_and!; [done..|].
  exists zs. simpl. split_and!; [|done..].
  rewrite list_fmap_insert. simpl. rewrite list_insert_id; [done|].
  by rewrite list_lookup_fmap, Hi.
Qed.

Lemma has_id_VInt (item_id z : Z) (x : TodoItem) :
  id x = VInt z -> has_id item_id x ↔ z = item_id.
Proof.
  unfold has_id, py_eq_int. intros ->. by rewrite Z.eqb_eq.
Qed.


Lemma perform_counted (n : Z) (w : world) (c : call) :
  counted n (self w) ->
  ∃ r w', perform c w = (Ok r, w')
    ∧ counted (n + Z.of_nat (adds [c])) (self w')
    ∧ issued [r] = VInt <$> seqZ n (Z.of_nat (adds [c])).
Proof.
  intros Hc. destruct c as [t d due p|i|i]; unfold perform, mbind, M_bind.
  - rewrite add_item_eq. destruct Hc as (Hpos & Hn & Hrest). rewrite Hn. simpl.
    eexists _, _. split; [reflexivity|]. split.
    + apply (counted_add n (self w)). by split_and!.
    + done.
  - rewrite remove_item_eq. rewrite Z.add_0_r.
    destruct (list_find _ _) as [[j x]|]; eexists _, _;
      (split; [reflexivity|split; [|done]]); [|done].
    by apply counted_delete.
  - rewrite complete_item_eq. rewrite Z.add_0_r.
    destruct (list_find _ _) as [[j x]|] eqn:Hfind; eexists _, _;
      (split; [reflexivity|split; [|done]]); [|done].
    apply list_find_Some in Hfind as (Hj & _). by apply counted_complete.
Qed.

Lemma session_counted (cs : list call) (n : Z) (w : world) :
  counted n (self w) ->
  ∃ rs w', session cs w = (Ok rs, w')
    ∧ counted (n + Z.of_nat (adds cs)) (self w')
    ∧ issued rs = VInt <$> seqZ n (Z.of_nat (adds cs)).
Proof.
  revert n w. induction cs as [|c cs IH]; intros n w Hc.
  - exists [], w. rewrite Z.add_0_r. done.
  - destruct (perform_counted n w c Hc) as (r & w1 & Hr & Hc1 & Hi1).
    destruct (IH _ w1 Hc1) as (rs & w2 & Hrs & Hc2 & Hi2).
    exists (r :: rs), w2. split_and!.
    + cbn [session]. unfold mbind, M_bind. rewrite Hr, Hrs. done.
    + replace (n + Z.of_nat (adds (c :: cs)))
        with (n + Z.of_nat (adds [c]) + Z.of_nat (adds cs)); [done|].
      destruct c; simpl; lia.
    + change (r :: rs) with ([r] ++ rs). unfold issued in *.
      rewrite omap_app, Hi1, Hi2, <- fmap_app. f_equal.
      replace (Z.of_nat (adds (c :: cs)))
        with (Z.of_nat (adds [c]) + Z.of_nat (adds cs)) by (destruct c; simpl; lia).
      rewrite seqZ_app by lia. done.
Qed.

(** ** The claims about the list *)

(** C3: in any session of adds, removes and completions on a list that starts
    empty, and after each of its calls, no call has raised, the ids the adds
    returned so far are 1, 2, ..., k in this order (so they increase strictly
    and none is handed out twice, removed or not), [next_id] is k + 1, above
    all of them, and every id still in the list is one of them. *)
Theorem C3_ids_strictly_increasing (d : option file) (cs : list call) (k : nat) :
  let done_so_far := take k cs in
  let issued_so_far := Z.of_nat (adds done_so_far) in
  ∃ rs w,
    session done_so_far (mkWorld blank d) = (Ok rs, w)
    ∧ issued rs = VInt <$> seqZ 1 issued_so_far
    ∧ next_id (self w) = VInt (1 + issued_so_far)
    ∧ (∀ z, VInt z ∈ issued rs -> z < 1 + issued_so_far)
    ∧ (∀ i j a b, issued rs !! i = Some (VInt a) -> issued rs !! j = Some (VInt b) ->
                  (i < j)%nat -> a < b)
    ∧ Forall (fun item => id item ∈ issued rs) (todos (self w)).
Proof.
  intros done_so_far issued_so_far.
  destruct (session_counted done_so_far 1 (mkWorld blank d) counted_blank)
    as (rs & w & Hrs & (_ & Hn & zs & Hzs & _ & Hlt) & Hiss).
  fold issued_so_far in Hn, Hlt, Hiss.
  exists rs, w. rewrite Hiss. split_and!; [done..| | |].
  - intros z (z' & [= ->] & Hz)%list_elem_of_fmap.
    apply elem_of_seqZ in Hz. lia.
  - intros i j a b Hi Hj Hij.
    rewrite list_lookup_fmap in Hi, Hj.
    apply fmap_Some in Hi as (a' & Hi & [= ->]).
    apply fmap_Some in Hj as (b' & Hj & [= ->]).
    apply lookup_seqZ in Hi as [-> _]. apply lookup_seqZ in Hj as [-> _]. lia.
  - apply Forall_forall. intros item Hitem.
    apply (list_elem_of_fmap_2 id) in Hitem. rewrite Hzs in Hitem.
    apply list_elem_of_fmap in Hitem as (z & -> & Hz).
    apply list_elem_of_fmap_2, elem_of_seqZ.
    rewrite Forall_forall in Hlt. specialize (Hlt _ Hz). lia.
Qed.

(** C4, amended: when some item has the id, [remove_item] deletes the first
    such item and nothing else, keeps the order and [next_id], saves and
    returns [True], and if no later item has that id a following [get_item]
    returns [None]; when no item has the id, [remove_item] returns [False]
    and leaves the list, [next_id] and the file as they were. *)
Theorem C4_remove_item (w : world) (item_id : Z) :
  (Exists (has_id item_id) (todos (self w)) ->
     ∃ l1 x l2,
       todos (self w) = l1 ++ x :: l2 ∧ absent item_id l1 ∧ has_id item_id x
       ∧ let w' := saved (mkTodoList (l1 ++ l2) (next_id (self w))) in
         remove_item item_id w = (Ok true, w')
         ∧ (absent item_id l2 -> get_item item_id w' = (Ok None, w')))
  ∧ (¬ Exists (has_id item_id) (todos (self w)) ->
       remove_item item_id w = (Ok false, w)).
Proof.
  split.
  - intros (l1 & x & l2 & Hl & Hl1 & Hx)%first_occurrence.
    exists l1, x, l2. do 3 (split; [done|]). simpl. split.
    + by eapply remove_item_first.
    + intros Hl2. apply get_item_absent. simpl. by apply Forall_app.
  - intros Hno%not_Exists_absent. by apply remove_item_absent.
Qed.

(** C4 as stated fails: a file with two records of id 1 loads without error,
    [remove_item 1] returns [True], and [get_item 1] then returns the second
    record instead of [None]. *)
Lemma C4_get_after_remove_finds_twin :
  let second := mkTodoItem (VInt 1) (VStr "second") (VStr "") VNone (VInt 3) (VBool false) in
  let w1 := saved (mkTodoList [second] (VInt 3)) in
  ∃ w, new_TodoList (Some (Json twins)) = (Ok tt, w)
    ∧ Exists (has_id 1) (todos (self w))
    ∧ remove_item 1 w = (Ok true, w1)
    ∧ get_item 1 w1 = (Ok (Some second), w1).
Proof.
  eexists. split; [reflexivity|]. split; [by left|]. by split.
Qed.

Lemma C4_remove_item_witness :
  let first := mkTodoItem (VInt 1) (VStr "first") (VStr "") VNone (VInt 3) (VBool false) in
  let second := mkTodoItem (VInt 2) (VStr "second") (VStr "") VNone (VInt 3) (VBool false) in
  let w := saved (mkTodoList [first; second] (VInt 3)) in
  (∃ l1 x l2,
     [first; second] = l1 ++ x :: l2 ∧ absent 2 l1 ∧ has_id 2 x
     ∧ let w' := saved (mkTodoList (l1 ++ l2) (VInt 3)) in
       remove_item 2 w = (Ok true, w')
       ∧ (absent 2 l2 -> get_item 2 w' = (Ok None, w')))
  ∧ remove_item 5 w = (Ok false, w).
Proof.
  intros first second w.
  destruct (C4_remove_item w 2) as [Hfound _].
  destruct (C4_remove_item w 5) as [_ Hmissing].
  split.
  - apply Hfound. right. by left.
  - apply Hmissing. apply Forall_not_Exists. by repeat constructor.
Defined.

(** C5: when some item has the id, two calls of [complete_item] both return
    [True]; the first sets the completion flag of the first such item to
    [True], leaves its other fields, the other items, their order and
    [next_id] alone and saves; the second changes nothing further. *)
Theorem C5_complete_idempotent (w : world) (item_id : Z) :
  Exists (has_id item_id) (todos (self w)) ->
  ∃ l1 x l2 x',
    todos (self w) = l1 ++ x :: l2 ∧ absent item_id l1 ∧ has_id item_id x
    ∧ complete_item item_id w
      = (Ok true, saved (mkTodoList (l1 ++ x' :: l2) (next_id (self w))))
    ∧ complete_item item_id (saved (mkTodoList (l1 ++ x' :: l2) (next_id (self w))))
      = (Ok true, saved (mkTodoList (l1 ++ x' :: l2) (next_id (self w))))
    ∧ completed x' = VBool true
    ∧ id x' = id x ∧ title x' = title x ∧ description x' = description x
    ∧ due_date x' = due_date x ∧ priority x' = priority x.
Proof.
  intros (l1 & x & l2 & Hl & Hl1 & Hx)%first_occurrence.
  exists l1, x, l2, (set_completed x). do 3 (split; [done|]).
  split; [by apply complete_item_first|].
  split; [|done].
  exact (complete_item_first
           (saved (mkTodoList (l1 ++ set_completed x :: l2) (next_id (self w))))
           item_id l1 l2 (set_completed x) eq_refl Hl1 Hx).
Qed.

Lemma C5_complete_idempotent_witness :
  let item := mkTodoItem (VInt 1) (VStr "milk") (VStr "") VNone (VInt 1) (VBool false) in
  ∃ l1 x l2 x',
    [item] = l1 ++ x :: l2 ∧ absent 1 l1 ∧ has_id 1 x
    ∧ complete_item 1 (saved (mkTodoList [item] (VInt 2)))
      = (Ok true, saved (mkTodoList (l1 ++ x' :: l2) (VInt 2)))
    ∧ complete_item 1 (saved (mkTodoList (l1 ++ x' :: l2) (VInt 2)))
      = (Ok true, saved (mkTodoList (l1 ++ x' :: l2) (VInt 2)))
    ∧ completed x' = VBool true
    ∧ id x' = id x ∧ title x' = title x ∧ description x' = description x
    ∧ due_date x' = due_date x ∧ priority x' = priority x.
Proof.
  intros item.
  apply (C5_complete_idempotent (saved (mkTodoList [item] (VInt 2))) 1).
  by left.
Defined.

(** C6: [list_items(True)] returns the whole list as it stands.
    [list_items(False)] returns the items whose completion flag is false (as
    [not] judges it), each as often as it occurs and in the order of the
    list; an item whose flag is [True] is never among them, and an item whose
    flag is [False] always is.  Neither call changes the list or the file. *)
Theorem C6_list_items (w : world) :
  list_items true w = (Ok (todos (self w)), w)
  ∧ ∃ l, list_items false w = (Ok l, w)
      ∧ l = filter (fun item => ¬ truthy (completed item)) (todos (self w))
      ∧ l `sublist_of` todos (self w)
      ∧ (∀ item, item ∈ l ↔ item ∈ todos (self w) ∧ truthy (completed item) = false)
      ∧ (∀ item, item ∈ l -> completed item ≠ VBool true)
      ∧ (∀ item, item ∈ todos (self w) -> completed item = VBool false -> item ∈ l).
Proof.
  split; [done|]. eexists. split; [reflexivity|]. split; [done|]. split_and!.
  - apply sublist_filter.
  - intros item. rewrite list_elem_of_filter.
    destruct (truthy (completed item)); simpl; intuition discriminate.
  - intros item [Hc _]%list_elem_of_filter Heq. rewrite Heq in Hc. exact (Hc I).
  - intros item Hin Heq. apply list_elem_of_filter. rewrite Heq. split; [|done].
    simpl. tauto.
Qed.



(** ** Rendering *)

Lemma priority_label (v : value) :
  (∃ p label, 1 ≤ p ≤ 3 ∧ py_eq_int v p = true
              ∧ int_dict_subscript priority_map v = Ok label)
  ∨ (¬ (∃ p, 1 ≤ p ≤ 3 ∧ py_eq_int v p = true)
     ∧ ∃ e, int_dict_subscript priority_map v = Raise e).
Proof.
  assert (Hint : ∀ n : Z,
    (1 ≤ n ≤ 3 ∧ ∃ label, int_dict_lookup n priority_map = Some label)
    ∨ (¬ 1 ≤ n ≤ 3 ∧ int_dict_lookup n priority_map = None)).
  { intros n. unfold priority_map, int_dict_lookup.
    destruct (Z.eqb_spec n 1); [left; split; [lia|eauto]|].
    destruct (Z.eqb_spec n 2); [left; split; [lia|eauto]|].
    destruct (Z.eqb_spec n 3); [left; split; [lia|eauto]|].
    right. split; [lia|done]. }
  destruct v as [|b|n|s|l|d]; unfold int_dict_subscript, py_eq_int;
    try (right; split; [by intros (p & _ & ?)|eauto]).
  - destruct (Hint (int_of_bool b)) as [[Hr [label Hl]]|[Hr Hl]]; rewrite Hl.
    + left. exists (int_of_bool b), label. by rewrite Z.eqb_refl.
    + right. split; [|eauto]. intros (p & Hp & Heq%Z.eqb_eq). lia.
  - destruct (Hint n) as [[Hr [label Hl]]|[Hr Hl]]; rewrite Hl.
    + left. exists n, label. by rewrite Z.eqb_refl.
    + right. split; [|eauto]. intros (p & Hp & Heq%Z.eqb_eq). lia.
Qed.

(** C9: [__str__] produces a line exactly when the priority equals 1, 2 or 3.
    For an integer priority outside 1..3 it raises [KeyError] at
    [priority_map[self.priority]]; and such an item exists in a running
    program: the file [urgent], whose record has priority 7, loads without
    error into an item that cannot be rendered. *)
Theorem C9_str_partial (py_repr : value -> string) (item : TodoItem) :
  ((∃ line, __str__ py_repr item = Ok line)
   ↔ ∃ p, 1 ≤ p ≤ 3 ∧ py_eq_int (priority item) p = true)
  ∧ (∀ p, priority item = VInt p -> ¬ 1 ≤ p ≤ 3 ->
          __str__ py_repr item = Raise KeyError)
  ∧ (∃ w stored,
       new_TodoList (Some (Json urgent)) = (Ok tt, w)
       ∧ todos (self w) = [stored]
       ∧ priority stored = VInt 7
       ∧ __str__ py_repr stored = Raise KeyError).
Proof.
  split_and!.
  - unfold __str__, mbind, result_bind.
    destruct (priority_label (priority item))
      as [(p & label & Hp & Heq & ->)|[Hno [e ->]]].
    + split; eauto.
    + split; [by intros [line ?]|]. intros Hyes. by destruct Hno.
  - intros p Hp Hout. unfold __str__, mbind, result_bind. rewrite Hp. simpl.
    destruct (Z.eqb_spec p 1); [lia|].
    destruct (Z.eqb_spec p 2); [lia|].
    destruct (Z.eqb_spec p 3); [lia|]. done.
  - by eexists _, _.
Qed.

Lemma C9_str_partial_witness :
  let item := mkTodoItem (VInt 1) (VStr "tax") (VStr "") VNone (VInt 7) (VBool false) in
  __str__ (fun _ => EmptyString) item = Raise KeyError.
Proof.
  intros item.
  destruct (C9_str_partial (fun _ => EmptyString) item) as (_ & Hout & _).
  apply (Hout 7); [reflexivity|lia].
Defined.

(** ** Lists with a repeated id *)



(** The other way to a repeated id: the file has none, but its counter is
    behind, and the next add hands out an id that is taken. *)
Lemma stale_counter_repeats_id :
  let first := mkTodoItem (VInt 1) (VStr "first") (VStr "") VNone (VInt 3) (VBool false) in
  let second := mkTodoItem (VInt 1) (VStr "second") (VStr "") VNone (VInt 3) (VBool false) in
  let w := mkWorld (mkTodoList [first] (VInt 1)) (Some (Json stale)) in
  let w' := saved (mkTodoList [first; second] (VInt 2)) in
  new_TodoList (Some (Json stale)) = (Ok tt, w)
  ∧ unique_ids (todos (self w))
  ∧ add_item (VStr "second") (VStr "") VNone (VInt 3) w = (Ok second, w')
  ∧ ¬ unique_ids (todos (self w')).
Proof.
  intros first second w w'. split; [reflexivity|]. split_and!.
  - intros item_id l1 x l2 Hl _.
    destruct l1 as [|y [|z l1]]; simplify_eq/=; split; constructor.
  - reflexivity.
  - intros Huniq.
    destruct (Huniq 1 [] first [second] eq_refl eq_refl) as [_ Hafter].
    by inversion Hafter.
Qed.



Lemma C3_ids_strictly_increasing_witness :
  let cs := [ Add (VStr "a") (VStr "") VNone (VInt 3); Remove 1;
              Add (VStr "b") (VStr "") VNone (VInt 3) ] in
  ∃ rs w,
    session cs (mkWorld blank None) = (Ok rs, w)
    ∧ issued rs = [VInt 1; VInt 2]
    ∧ next_id (self w) = VInt 3.
Proof.
  intros cs.
  destruct (C3_ids_strictly_increasing None cs 3) as (rs & w & Hrun & Hiss & Hn & _).
  exists rs, w. split_and!; [exact Hrun|exact Hiss|exact Hn].
Defined.

Lemma C6_list_items_witness :
  let open := mkTodoItem (VInt 2) (VStr "b") (VStr "") VNone (VInt 3) (VBool false) in
  let closed := mkTodoItem (VInt 1) (VStr "a") (VStr "") VNone (VInt 1) (VBool true) in
  let w := saved (mkTodoList [closed; open] (VInt 3)) in
  list_items true w = (Ok [closed; open], w)
  ∧ list_items false w = (Ok [open], w).
Proof.
  intros open closed w.
  destruct (C6_list_items w) as (Hall & l & Hrun & -> & _).
  split; [exact Hall|exact Hrun].
Defined.

(** ** The scenario of the specification *)

Example scenario :
  let milk := mkTodoItem (VInt 1) (VStr "Buy milk") (VStr "") VNone (VInt 1) in
  let house := mkTodoItem (VInt 2) (VStr "Clean house") (VStr "") VNone (VInt 3) (VBool false) in
  fst ((a ← add_item (VStr "Buy milk") (VStr "") VNone (VInt 1);
        b ← add_item (VStr "Clean house") (VStr "") VNone (VInt 3);
        c ← complete_item 1;
        open ← list_items false;
        all ← list_items true;
        r ← remove_item 1;
        g ← get_item 1;
        mret (a, b, c, open, all, r, g)) (mkWorld blank None))
  = Ok (milk (VBool false), house, true, [house], [milk (VBool true); house], true, None).
Proof. reflexivity. Qed.

(** ** Further properties of the item and the list *)

Lemma comprehension_from_dict_raises (records : list value) (e : exn) :
  comprehension from_dict records = Raise e -> e = KeyError ∨ e = TypeError.
Proof.
  induction records as [|r records IH]; [done|].
  cbn [comprehension]. unfold mbind at 1, result_bind at 1.
  destruct (from_dict r) as [item|e'] eqn:Hr.
  - unfold mbind, result_bind.
    destruct (comprehension from_dict records); [done|].
    intros [= ->]. by apply IH.
  - intros [= ->]. destruct r as [| | | | |d]; try (right; by inversion Hr).
    unfold from_dict, subscript, dict_get, mbind, result_bind in Hr.
    destruct (dict_lookup "id" d); [|left; congruence].
    destruct (dict_lookup "title" d); [done|left; congruence].
Qed.

Lemma from_dict_present (d : list (string * value)) (i t : value) :
  dict_lookup "id" d = Some i -> dict_lookup "title" d = Some t ->
  ∃ item, from_dict (VDict d) = Ok item.
Proof.
  intros Hi Ht. unfold from_dict, subscript, dict_get, mbind, result_bind.
  rewrite Hi, Ht. eauto.
Qed.

(** [from_dict] returns an item exactly on a dictionary that has the keys
    ["id"] and ["title"]; a dictionary without one of them raises [KeyError]
    and anything that is no dictionary raises [TypeError]. *)
Theorem from_dict_outcome (data : value) :
  ((∃ item, from_dict data = Ok item)
   ↔ ∃ d, data = VDict d ∧ is_Some (dict_lookup "id" d)
                         ∧ is_Some (dict_lookup "title" d))
  ∧ (∀ d, data = VDict d -> (∃ item, from_dict data = Ok item)
                            ∨ from_dict data = Raise KeyError)
  ∧ ((∀ d, data ≠ VDict d) -> from_dict data = Raise TypeError).
Proof.
  split_and!.
  - split.
    + intros [item Hitem]. destruct data as [| | | | |d]; try done.
      exists d. split; [done|].
      unfold from_dict, subscript, mbind, result_bind in Hitem.
      destruct (dict_lookup "id" d); [|done].
      destruct (dict_lookup "title" d); [|done]. split; eauto.
    + intros (d & -> & [i Hi] & [t Ht]).
      by eapply from_dict_present.
  - intros d ->. unfold from_dict, subscript, dict_get, mbind, result_bind.
    destruct (dict_lookup "id" d); [|by right].
    destruct (dict_lookup "title" d); [|by right]. left. eauto.
  - intros Hd. destruct data; try done. by destruct (Hd d).
Qed.

Lemma from_dict_outcome_witness : from_dict (VList []) = Raise TypeError.
Proof.
  destruct (from_dict_outcome (VList [])) as (_ & _ & Hother).
  apply Hother. by intros d.
Defined.

Lemma load_outcome (data : value) :
  new_TodoList (Some (Json data)) =
    match subscript data "todos" with
    | Raise e => (Raise e, mkWorld blank (Some (Json data)))
    | Ok stored =>
        match py_iter stored with
        | Raise e => (Raise e, mkWorld blank (Some (Json data)))
        | Ok records =>
            match comprehension from_dict records with
            | Raise e => (Raise e, mkWorld blank (Some (Json data)))
            | Ok items =>
                match subscript data "next_id" with
                | Raise e =>
                    (Raise e, mkWorld (mkTodoList items (VInt 1)) (Some (Json data)))
                | Ok n => (Ok tt, mkWorld (mkTodoList items n) (Some (Json data)))
                end
            end
        end
    end.
Proof.
  unfold new_TodoList, load_data, try_except, mbind, M_bind, lift. simpl.
  destruct (subscript data "todos") as [stored|e] eqn:Hs; simpl.
  - destruct (py_iter stored) as [records|e] eqn:Hi; simpl.
    + destruct (comprehension from_dict records) as [items|e] eqn:Hc; simpl.
      * destruct (subscript data "next_id") as [n|e] eqn:Hn; simpl; [done|].
        destruct data; try done. simpl in Hn.
        destruct (dict_lookup "next_id" d); [done|]. by injection Hn as <-.
      * by destruct (comprehension_from_dict_raises _ _ Hc) as [-> | ->].
    + by destruct stored; simplify_eq/=.
  - destruct data; try (by injection Hs as <-). simpl in Hs.
    destruct (dict_lookup "todos" d); [done|]. by injection Hs as <-.
Qed.

Lemma subscript_raises (v : value) (k : string) (e : exn) :
  subscript v k = Raise e -> e = KeyError ∨ e = TypeError.
Proof.
  destruct v; simpl; try (intros [= <-]; by right).
  destruct (dict_lookup k d); [done|]. intros [= <-]. by left.
Qed.

(** The constructor never writes the file.  If it raises, the file holds a
    document ([json.load] accepted it) and the exception is [KeyError] or
    [TypeError]; a missing file and a file that is not JSON never make it
    raise. *)
Theorem constructor_outcome (d : option file) :
  disk (snd (new_TodoList d)) = d
  ∧ (∀ e, fst (new_TodoList d) = Raise e ->
          (e = KeyError ∨ e = TypeError) ∧ ∃ data, d = Some (Json data)).
Proof.
  destruct d as [[|data]|]; [by split..| |by split].
  rewrite load_outcome.
  destruct (subscript data "todos") as [stored|e1] eqn:H1.
  2:{ split; [done|]. intros e [= <-]. split; [|eauto]. by eapply subscript_raises. }
  destruct (py_iter stored) as [records|e2] eqn:H2.
  2:{ split; [done|]. intros e [= <-]. split; [|eauto].
      destruct stored; simplify_eq/=; by right. }
  destruct (comprehension from_dict records) as [items|e3] eqn:H3.
  2:{ split; [done|]. intros e [= <-]. split; [|eauto].
      by eapply comprehension_from_dict_raises. }
  destruct (subscript data "next_id") as [n|e4] eqn:H4.
  - split; [done|]. by intros e.
  - split; [done|]. intros e [= <-]. split; [|eauto]. by eapply subscript_raises.
Qed.

Lemma constructor_outcome_witness :
  let d := Some (Json (VDict [("todos", VStr "ab"); ("next_id", VInt 1)])) in
  disk (snd (new_TodoList d)) = d
  ∧ ∃ data, d = Some (Json data).
Proof.
  intros d. destruct (constructor_outcome d) as [Hdisk Hraise].
  split; [exact Hdisk|]. by destruct (Hraise TypeError eq_refl) as [_ Hdoc].
Defined.

Lemma constructor_recoverable (d : option file) (w : world) :
  new_TodoList d = (Ok tt, w) -> recoverable w.
Proof.
  intros Hnew. unfold recoverable.
  destruct (constructor_outcome d) as [Hdisk _].
  rewrite Hnew in Hdisk. simpl in Hdisk. by rewrite Hdisk.
Qed.

Lemma saved_recoverable (s : TodoList) : recoverable (saved s).
Proof. apply load_document. Qed.

Lemma perform_recoverable (c : call) (w w' : world) (r : reply) :
  recoverable w -> perform c w = (Ok r, w') -> recoverable w'.
Proof.
  intros Hw. destruct c as [t d due p|i|i]; unfold perform, mbind, M_bind.
  - rewrite add_item_eq. destruct (py_add_int _ _); [|done].
    intros [= _ <-]. apply saved_recoverable.
  - rewrite remove_item_eq. destruct (list_find _ _) as [[j x]|];
      intros [= _ <-]; [apply saved_recoverable|done].
  - rewrite complete_item_eq. destruct (list_find _ _) as [[j x]|];
      intros [= _ <-]; [apply saved_recoverable|done].
Qed.

(** Durability.  Start the program on any file; if the constructor returns
    and a session of adds, removes and completions runs through without an
    exception, then constructing a list from the file left behind gives
    exactly the list and the counter that were in memory at the end. *)
Theorem session_durable
    (d : option file) (w w' : world) (cs : list call) (rs : list reply) :
  new_TodoList d = (Ok tt, w) ->
  session cs w = (Ok rs, w') ->
  new_TodoList (disk w') = (Ok tt, w').
Proof.
  intros Hw%constructor_recoverable. revert w rs Hw.
  induction cs as [|c cs IH]; intros w rs Hw.
  - by intros [= _ <-].
  - cbn [session]. unfold mbind at 1, M_bind at 1.
    destruct (perform c w) as [[r|e] w1] eqn:Hc; [|done].
    unfold mbind at 1, M_bind at 1.
    destruct (session cs w1) as [[rs1|e] w2] eqn:Hs; [|done].
    intros [= _ <-]. eapply IH; [|done]. by eapply perform_recoverable.
Qed.

Lemma session_durable_witness :
  let cs := [ Add (VStr "a") (VStr "") VNone (VInt 3); Complete 1; Remove 7 ] in
  let done := mkTodoItem (VInt 1) (VStr "a") (VStr "") VNone (VInt 3) (VBool true) in
  let w' := saved (mkTodoList [done] (VInt 2)) in
  new_TodoList (disk w') = (Ok tt, w').
Proof.
  intros cs done w'.
  exact (session_durable (Some Garbage) (mkWorld blank (Some Garbage)) w' cs
           [Item (mkTodoItem (VInt 1) (VStr "a") (VStr "") VNone (VInt 3) (VBool false));
            Flag true; Flag false]
           eq_refl eq_refl).
Defined.

(** ** What one call does to the answers of the others *)

Lemma find_cons (j : Z) (y : TodoItem) (l : list TodoItem) :
  snd <$> list_find (has_id j) (y :: l)
  = if decide (has_id j y) then Some y else snd <$> list_find (has_id j) l.
Proof.
  cbn [list_find]. destruct (decide (has_id j y)); [done|].
  by destruct (list_find (has_id j) l) as [[? ?]|].
Qed.

Lemma find_app (j : Z) (l1 l2 : list TodoItem) :
  snd <$> list_find (has_id j) (l1 ++ l2)
  = match snd <$> list_find (has_id j) l1 with
    | Some x => Some x
    | None => snd <$> list_find (has_id j) l2
    end.
Proof.
  induction l1 as [|y l1 IH]; [done|].
  rewrite <- app_comm_cons, !find_cons. by destruct (decide (has_id j y)).
Qed.

Lemma has_id_inj (i j : Z) (x : TodoItem) : has_id i x -> has_id j x -> i = j.
Proof.
  unfold has_id, py_eq_int.
  destruct (id x); try done; intros ?%Z.eqb_eq ?%Z.eqb_eq; congruence.
Qed.

Lemma remove_item_found (i : Z) (w w' : world) :
  remove_item i w = (Ok true, w') ->
  ∃ l1 x l2, todos (self w) = l1 ++ x :: l2 ∧ absent i l1 ∧ has_id i x
             ∧ w' = saved (mkTodoList (l1 ++ l2) (next_id (self w))).
Proof.
  rewrite remove_item_eq.
  destruct (list_find _ _) as [[k x]|] eqn:Hfind; [|done]. intros [= <-].
  apply list_find_Some in Hfind as (Hk & Hx & Hbefore).
  exists (take k (todos (self w))), x, (drop (S k) (todos (self w))).
  split_and!.
  - by rewrite <- (take_drop_middle _ _ _ Hk) at 1.
  - apply Forall_forall. intros y Hy Hid.
    apply list_elem_of_lookup in Hy as [m Hm].
    pose proof (lookup_lt_Some _ _ _ Hm) as Hlt. rewrite length_take in Hlt.
    rewrite lookup_take_lt in Hm by lia. eapply Hbefore; [done| |done]. lia.
  - done.
  - by rewrite delete_take_drop.
Qed.

Lemma complete_item_found (i : Z) (w w' : world) :
  complete_item i w = (Ok true, w') ->
  ∃ l1 x l2, todos (self w) = l1 ++ x :: l2 ∧ absent i l1 ∧ has_id i x
             ∧ w' = saved (mkTodoList (l1 ++ set_completed x :: l2) (next_id (self w))).
Proof.
  rewrite complete_item_eq.
  destruct (list_find _ _) as [[k x]|] eqn:Hfind; [|done]. intros [= <-].
  assert (Hex : Exists (has_id i) (todos (self w))).
  { apply list_find_Some in Hfind as (Hk & Hx & _).
    apply Exists_exists. exists x. split; [|done]. by eapply list_elem_of_lookup_2. }
  apply first_occurrence in Hex as (l1 & y & l2 & Hl & Hl1 & Hy).
  rewrite Hl, find_first in Hfind by done. injection Hfind as <- <-.
  exists l1, y, l2. split_and!; [done..|]. by rewrite Hl, insert_middle.
Qed.

(** An id that no item has: [complete_item] returns [False], [get_item]
    returns [None], and neither the list, the counter nor the file
    changes. *)
Theorem missing_id_untouched (w : world) (item_id : Z) :
  ¬ Exists (has_id item_id) (todos (self w)) ->
  complete_item item_id w = (Ok false, w)
  ∧ get_item item_id w = (Ok None, w).
Proof.
  intros Hno%not_Exists_absent.
  rewrite complete_item_eq, get_item_eq, find_none by done. done.
Qed.

Lemma missing_id_untouched_witness :
  let w := saved (mkTodoList [mkTodoItem (VInt 1) (VStr "a") (VStr "") VNone (VInt 3)
                                         (VBool false)] (VInt 2)) in
  complete_item 9 w = (Ok false, w) ∧ get_item 9 w = (Ok None, w).
Proof.
  intros w. apply (missing_id_untouched w 9).
  apply Forall_not_Exists. by repeat constructor.
Defined.

Lemma add_item_counter (w : world) (n : Z) (t d due p : value) :
  next_id (self w) = VInt n ->
  add_item t d due p w
  = (Ok (mkTodoItem (VInt n) t d due p (VBool false)),
     saved (mkTodoList (todos (self w) ++ [mkTodoItem (VInt n) t d due p (VBool false)])
                       (VInt (n + 1)))).
Proof. intros Hn. by rewrite add_item_eq, Hn. Qed.

(** Looking up after an add, on a list whose counter is the integer n.  An id
    other than n is answered as before.  The id n is answered by the new item
    when no older item has it, and by the older item when one does (a
    counter that lags behind the file): the new item then cannot be reached
    by its id. *)
Theorem add_then_get (w w' : world) (n : Z) (t d due p : value) (item : TodoItem) :
  next_id (self w) = VInt n ->
  add_item t d due p w = (Ok item, w') ->
  (∀ j, j ≠ n -> fst (get_item j w') = fst (get_item j w))
  ∧ (absent n (todos (self w)) -> get_item n w' = (Ok (Some item), w'))
  ∧ (∀ old, fst (get_item n w) = Ok (Some old) -> get_item n w' = (Ok (Some old), w')).
Proof.
  intros Hn. rewrite (add_item_counter w n t d due p Hn). intros [= <- <-].
  split_and!.
  - intros j Hj. rewrite !get_item_eq. simpl. f_equal.
    rewrite find_app, find_cons.
    destruct (snd <$> list_find (has_id j) (todos (self w))); [done|].
    destruct (decide _) as [Hid|]; [|done].
    apply (has_id_VInt j n) in Hid; [congruence|done].
  - intros Hno. rewrite get_item_eq. simpl.
    rewrite find_app, find_cons, find_none by done. simpl.
    destruct (decide _) as [|Hid]; [done|]. destruct Hid. by apply (has_id_VInt n n).
  - intros old. rewrite !get_item_eq. simpl. intros [= Hold].
    by rewrite find_app, Hold.
Qed.

Lemma add_then_get_witness :
  let w := mkWorld blank None in
  let item := mkTodoItem (VInt 1) (VStr "a") (VStr "") VNone (VInt 3) (VBool false) in
  let w' := saved (mkTodoList [item] (VInt 2)) in
  get_item 1 w' = (Ok (Some item), w').
Proof.
  intros w item w'.
  destruct (add_then_get w w' 1 (VStr "a") (VStr "") VNone (VInt 3) item eq_refl eq_refl)
    as (_ & Hnew & _).
  apply Hnew. constructor.
Defined.

(** After a removal that found its item, every other id is answered as
    before; and when no id occurs twice, the removed id is gone: a second
    [remove_item] and a [complete_item] with it return [False] and write
    nothing. *)
Theorem remove_then_others (w w' : world) (i : Z) :
  remove_item i w = (Ok true, w') ->
  (∀ j, j ≠ i -> fst (get_item j w') = fst (get_item j w))
  ∧ (unique_ids (todos (self w)) ->
       remove_item i w' = (Ok false, w') ∧ complete_item i w' = (Ok false, w')).
Proof.
  intros (l1 & x & l2 & Hl & Hl1 & Hx & ->)%remove_item_found. split.
  - intros j Hj. rewrite !get_item_eq, Hl. simpl. f_equal.
    rewrite !find_app, find_cons.
    destruct (decide (has_id j x)) as [Hjx|]; [|done].
    destruct Hj. by eapply has_id_inj.
  - intros Huniq. destruct (Huniq i l1 x l2 Hl Hx) as [_ Hl2].
    assert (Hgone : absent i (l1 ++ l2)) by by apply Forall_app.
    rewrite remove_item_eq, complete_item_eq. simpl. by rewrite find_none.
Qed.

Lemma remove_then_others_witness :
  let a := mkTodoItem (VInt 1) (VStr "a") (VStr "") VNone (VInt 3) (VBool false) in
  let b := mkTodoItem (VInt 2) (VStr "b") (VStr "") VNone (VInt 3) (VBool false) in
  let w := saved (mkTodoList [a; b] (VInt 3)) in
  let w' := saved (mkTodoList [b] (VInt 3)) in
  fst (get_item 2 w') = fst (get_item 2 w).
Proof.
  intros a b w w'.
  destruct (remove_then_others w w' 1 eq_refl) as [Hother _].
  apply Hother. lia.
Defined.

(** A completion that found its item keeps the ids of the list, their order
    and the counter; every other id is answered as before, and the completed
    id is answered by the same item with its flag set. *)
Theorem complete_then_get (w w' : world) (i : Z) :
  complete_item i w = (Ok true, w') ->
  id <$> todos (self w') = id <$> todos (self w)
  ∧ next_id (self w') = next_id (self w)
  ∧ (∀ j, j ≠ i -> fst (get_item j w') = fst (get_item j w))
  ∧ ∃ x, get_item i w = (Ok (Some x), w)
         ∧ get_item i w' = (Ok (Some (set_completed x)), w').
Proof.
  intros (l1 & x & l2 & Hl & Hl1 & Hx & ->)%complete_item_found. split_and!.
  - simpl. by rewrite Hl, !fmap_app, !fmap_cons.
  - done.
  - intros j Hj. rewrite !get_item_eq, Hl. simpl. f_equal.
    rewrite !find_app, !find_cons.
    destruct (decide (has_id j (set_completed x))) as [Hjx|Hjx];
      destruct (decide (has_id j x)) as [Hjx'|Hjx']; try done.
    destruct Hj. by eapply has_id_inj.
  - exists x. split.
    + by eapply get_item_first.
    + by eapply (get_item_first _ i l1 l2 (set_completed x)).
Qed.

Lemma complete_then_get_witness :
  let a := mkTodoItem (VInt 1) (VStr "a") (VStr "") VNone (VInt 3) (VBool false) in
  let w := saved (mkTodoList [a] (VInt 2)) in
  let w' := saved (mkTodoList [set_completed a] (VInt 2)) in
  id <$> todos (self w') = id <$> todos (self w)
  ∧ next_id (self w') = next_id (self w).
Proof.
  intros a w w'.
  destruct (complete_then_get w w' 1 eq_refl) as (Hids & Hn & _).
  split; [exact Hids|exact Hn].
Defined.

(** Completing an item and removing it show the same in the default listing:
    [list_items(False)] after [complete_item(i)] returns what it returns after
    [remove_item(i)]. *)
Theorem complete_hides_like_remove (w : world) (i : Z) :
  fst (list_items false (snd (complete_item i w)))
  = fst (list_items false (snd (remove_item i w))).
Proof.
  rewrite complete_item_eq, remove_item_eq.
  destruct (list_find (has_id i) (todos (self w))) as [[k x]|] eqn:Hfind; [|done].
  assert (Hex : Exists (has_id i) (todos (self w))).
  { apply list_find_Some in Hfind as (Hk & Hx & _).
    apply Exists_exists. exists x. split; [|done]. by eapply list_elem_of_lookup_2. }
  apply first_occurrence in Hex as (l1 & y & l2 & Hl & Hl1 & Hy).
  rewrite Hl, find_first in Hfind by done. injection Hfind as <- <-.
  rewrite Hl, insert_middle, delete_middle.
  unfold list_items, mbind, M_bind. simpl. f_equal.
  rewrite !filter_app, filter_cons.
  destruct (decide _) as [Hp|]; [|done]. by destruct Hp.
Qed.

(** ** Sessions on a loaded list *)

Lemma perform_integer_counter (n : Z) (w : world) (c : call) :
  next_id (self w) = VInt n ->
  ∃ r w', perform c w = (Ok r, w')
    ∧ next_id (self w') = VInt (n + Z.of_nat (adds [c]))
    ∧ issued [r] = VInt <$> seqZ n (Z.of_nat (adds [c])).
Proof.
  intros Hn. destruct c as [t d due p|i|i]; unfold perform, mbind, M_bind.
  - rewrite (add_item_counter w n t d due p Hn). by eexists _, _.
  - rewrite remove_item_eq, Z.add_0_r.
    by destruct (list_find _ _) as [[j x]|]; eexists _, _.
  - rewrite complete_item_eq, Z.add_0_r.
    by destruct (list_find _ _) as [[j x]|]; eexists _, _.
Qed.

(** With an integer n as counter, whatever the items are (repeated ids,
    fields of any type, as a file may hold them), no session of adds, removes
    and completions raises; the adds return the ids n, n+1, ... in this
    order and the counter ends at n plus their number. *)
Theorem integer_counter_never_raises (cs : list call) (n : Z) (w : world) :
  next_id (self w) = VInt n ->
  ∃ rs w', session cs w = (Ok rs, w')
    ∧ issued rs = VInt <$> seqZ n (Z.of_nat (adds cs))
    ∧ next_id (self w') = VInt (n + Z.of_nat (adds cs)).
Proof.
  revert n w. induction cs as [|c cs IH]; intros n w Hn.
  - exists [], w. by rewrite Z.add_0_r.
  - destruct (perform_integer_counter n w c Hn) as (r & w1 & Hr & Hn1 & Hi1).
    destruct (IH _ w1 Hn1) as (rs & w2 & Hrs & Hi2 & Hn2).
    assert (Hadds : Z.of_nat (adds (c :: cs))
                    = Z.of_nat (adds [c]) + Z.of_nat (adds cs))
      by (destruct c; simpl; lia).
    exists (r :: rs), w2. split_and!.
    + cbn [session]. unfold mbind, M_bind. by rewrite Hr, Hrs.
    + change (r :: rs) with ([r] ++ rs). unfold issued in *.
      rewrite omap_app, Hi1, Hi2, <- fmap_app, Hadds, seqZ_app by lia. done.
    + rewrite Hn2, Hadds. f_equal. lia.
Qed.

Lemma integer_counter_never_raises_witness :
  let cs := [ Add (VStr "c") (VStr "") VNone (VInt 3); Remove 1 ] in
  ∃ rs w', session cs (snd (new_TodoList (Some (Json twins)))) = (Ok rs, w')
           ∧ issued rs = [VInt 3]
           ∧ next_id (self w') = VInt 4.
Proof.
  intros cs.
  destruct (integer_counter_never_raises cs 3 (snd (new_TodoList (Some (Json twins))))
              eq_refl) as (rs & w' & Hrun & Hiss & Hn).
  exists rs, w'. split_and!; [exact Hrun|exact Hiss|exact Hn].
Defined.

Lemma StronglySorted_delete {A} (R : relation A) (l : list A) (i : nat) :
  StronglySorted R l -> StronglySorted R (delete i l).
Proof.
  revert i. induction l as [|x l IH]; intros i Hs; [done|].
  apply StronglySorted_cons in Hs as [Hx Hl].
  destruct i as [|i]; [done|]. simpl. apply StronglySorted_cons.
  split; [by apply Forall_delete|by apply IH].
Qed.

Lemma perform_ascending (n : Z) (w w' : world) (c : call) (r : reply) :
  ascending n (self w) -> perform c w = (Ok r, w') ->
  ascending (n + Z.of_nat (adds [c])) (self w').
Proof.
  intros (Hn & zs & Hzs & Hsort & Hlt).
  destruct c as [t d due p|i|i]; unfold perform, mbind, M_bind.
  - rewrite (add_item_counter w n t d due p Hn). intros [= _ <-].
    split; [done|]. exists (zs ++ [n]). simpl. rewrite !fmap_app, Hzs. split_and!.
    + done.
    + apply StronglySorted_app. split_and!.
      * intros a b Ha ->%list_elem_of_singleton.
        rewrite Forall_forall in Hlt. by apply Hlt.
      * done.
      * repeat constructor.
    + apply Forall_app. split; [|apply Forall_singleton; lia].
      eapply Forall_impl; [done|]. simpl. lia.
  - rewrite remove_item_eq, Z.add_0_r.
    destruct (list_find _ _) as [[j x]|]; intros [= _ <-]; [|by split; eauto].
    split; [done|]. exists (delete j zs). simpl.
    rewrite !list_fmap_delete, Hzs. split_and!; [done| |by apply Forall_delete].
    by apply StronglySorted_delete.
  - rewrite complete_item_eq, Z.add_0_r.
    destruct (list_find _ _) as [[j x]|] eqn:Hfind; intros [= _ <-]; [|by split; eauto].
    apply list_find_Some in Hfind as (Hj & _).
    split; [done|]. exists zs. simpl. split_and!; [|done..].
    rewrite list_fmap_insert. simpl. rewrite list_insert_id; [done|].
    by rewrite list_lookup_fmap, Hj.
Qed.

(** On a list that started empty, after any session of adds, removes and
    completions the items stand in strictly increasing order of id: the order
    in which [list_items] returns them is the order of their ids. *)
Theorem session_keeps_id_order
    (d : option file) (cs : list call) (rs : list reply) (w : world) :
  session cs (mkWorld blank d) = (Ok rs, w) ->
  ∃ zs, id <$> todos (self w) = VInt <$> zs ∧ StronglySorted Z.lt zs.
Proof.
  assert (Hgen : ∀ cs n w0 rs w,
    ascending n (self w0) -> session cs w0 = (Ok rs, w) ->
    ∃ m, ascending m (self w)).
  { clear. induction cs as [|c cs IH]; intros n w0 rs w Hasc.
    - intros [= _ <-]. eauto.
    - cbn [session]. unfold mbind at 1, M_bind at 1.
      destruct (perform c w0) as [[r|e] w1] eqn:Hc; [|done].
      unfold mbind at 1, M_bind at 1.
      destruct (session cs w1) as [[rs1|e] w2] eqn:Hs; [|done].
      intros [= _ <-]. eapply IH; [|done]. by eapply perform_ascending. }
  intros Hrun. destruct (Hgen cs 1 (mkWorld blank d) rs w) as (m & _ & zs & Hzs & Hsort & _).
  - split; [done|]. exists []. split_and!; [done|constructor|constructor].
  - done.
  - eauto.
Qed.

Lemma session_keeps_id_order_witness :
  let new i t := mkTodoItem (VInt i) (VStr t) (VStr "") VNone (VInt 3) (VBool false) in
  let w := saved (mkTodoList [new 1 "a"; new 3 "c"] (VInt 4)) in
  ∃ zs, id <$> todos (self w) = VInt <$> zs ∧ StronglySorted Z.lt zs.
Proof.
  intros new w.
  exact (session_keeps_id_order None
           [ Add (VStr "a") (VStr "") VNone (VInt 3);
             Add (VStr "b") (VStr "") VNone (VInt 3);
             Add (VStr "c") (VStr "") VNone (VInt 3); Remove 2 ]
           [ Item (new 1 "a"); Item (new 2 "b"); Item (new 3 "c"); Flag true ]
           w eq_refl).
Defined.

(** ** Printing the list *)

Section Display.
Context (py_repr : value -> string).

Lemma renderable_renders (item : TodoItem) :
  renderable item -> ∃ line, renders py_repr item line.
Proof.
  intros Hr. unfold renders, __str__, mbind, result_bind.
  destruct (priority_label (priority item))
    as [(p & label & _ & _ & ->)|[Hno _]]; [eauto|by destruct Hno].
Qed.

Lemma not_renderable_raises (item : TodoItem) :
  ¬ renderable item ->
  ∃ e, __str__ py_repr item = Raise e ∧ (e = KeyError ∨ e = TypeError).
Proof.
  intros Hno. unfold __str__, mbind, result_bind.
  destruct (priority_label (priority item))
    as [(p & label & Hp & Heq & _)|[_ [e He]]].
  - destruct Hno. by exists p.
  - rewrite He. exists e. split; [done|].
    destruct (priority item) as [|b|n|s|l|d]; simpl in He;
      repeat case_match; simplify_eq; auto.
Qed.

Lemma renderable_all (l : list TodoItem) :
  Forall renderable l -> ∃ lines, Forall2 (renders py_repr) l lines.
Proof.
  induction 1 as [|item l Hitem _ [lines IH]]; [by exists []|].
  destruct (renderable_renders item Hitem) as [line Hline].
  exists (line :: lines). by constructor.
Qed.

Lemma print_items_all (l : list TodoItem) (lines : list string) (p : process) :
  Forall2 (renders py_repr) l lines ->
  print_items py_repr l p = (Ok tt, mkProcess (mem p) (stdout p ++ (Print <$> lines))).
Proof.
  intros Hl. revert p. induction Hl as [|item line l lines Hitem _ IH]; intros p.
  - simpl. rewrite app_nil_r. by destruct p.
  - cbn [print_items]. unfold mbind at 1, IO_bind at 1, lift_io. rewrite Hitem.
    unfold mbind at 1, IO_bind at 1, print.
    rewrite IH. simpl. by rewrite <- app_assoc.
Qed.

Lemma print_items_until (l1 l2 : list TodoItem) (x : TodoItem)
    (lines : list string) (e : exn) (p : process) :
  Forall2 (renders py_repr) l1 lines ->
  __str__ py_repr x = Raise e ->
  print_items py_repr (l1 ++ x :: l2) p
  = (Raise e, mkProcess (mem p) (stdout p ++ (Print <$> lines))).
Proof.
  intros Hl Hx. revert p. induction Hl as [|item line l lines Hitem _ IH]; intros p.
  - simpl. unfold mbind, IO_bind, lift_io. rewrite Hx, app_nil_r. by destruct p.
  - rewrite <- app_comm_cons. cbn [print_items].
    unfold mbind at 1, IO_bind at 1, lift_io. rewrite Hitem.
    unfold mbind at 1, IO_bind at 1, print.
    rewrite IH. simpl. by rewrite <- app_assoc.
Qed.
End Display.

Lemma list_items_eq (show_completed : bool) (w : world) :
  list_items show_completed w
  = (Ok (if show_completed then todos (self w) else filter pending (todos (self w))), w).
Proof. by destruct show_completed. Qed.

Lemma display_todos_eq (py_repr : value -> string) (show_completed : bool) (p : process) :
  display_todos py_repr show_completed p
  = match (if show_completed then todos (self (mem p))
           else filter pending (todos (self (mem p)))) with
    | [] => print "No todo items found." p
    | l => (print (String "010" "To-Do List:");;
            print (str_mul "=" 50);;
            print_items py_repr l;;
            print (str_mul "=" 50)) p
    end.
Proof.
  unfold display_todos, mbind at 1, IO_bind at 1, call_method.
  rewrite list_items_eq. by destruct (if show_completed then _ else _).
Qed.

(** With nothing to show, [display_todos] prints the one line
    "No todo items found." and returns: that is so for an empty list, and,
    unless completed items are asked for, for a list whose items are all
    completed.  The list and the file stay as they are. *)
Theorem display_todos_nothing (py_repr : value -> string) (p : process) :
  (todos (self (mem p)) = [] ->
     ∀ show_completed,
       display_todos py_repr show_completed p
       = (Ok tt, mkProcess (mem p) (stdout p ++ [Print "No todo items found."])))
  ∧ (Forall (fun item => truthy (completed item) = true) (todos (self (mem p))) ->
       display_todos py_repr false p
       = (Ok tt, mkProcess (mem p) (stdout p ++ [Print "No todo items found."]))).
Proof.
  split.
  - intros Hnil show. rewrite display_todos_eq, Hnil. by destruct show.
  - intros Hall. rewrite display_todos_eq.
    replace (filter pending (todos (self (mem p)))) with (@nil TodoItem); [done|].
    symmetry. induction Hall as [|item l Hitem _ IH]; [done|].
    rewrite filter_cons, IH. destruct (decide (pending item)) as [Hp|]; [|done].
    destruct Hp. by rewrite Hitem.
Qed.

Lemma display_todos_nothing_witness :
  let a := mkTodoItem (VInt 1) (VStr "a") (VStr "") VNone (VInt 3) (VBool true) in
  let p := mkProcess (saved (mkTodoList [a] (VInt 2))) [] in
  display_todos (fun _ => EmptyString) false p
  = (Ok tt, mkProcess (mem p) [Print "No todo items found."]).
Proof.
  intros a p.
  destruct (display_todos_nothing (fun _ => EmptyString) p) as [_ Hall].
  apply Hall. by repeat constructor.
Defined.

(** When every item to show can be rendered, [display_todos] returns after
    printing the heading, a rule of fifty "=", one rendering per item in the
    order of the list, and the rule again; list and file stay as they
    are. *)
Theorem display_todos_all
    (py_repr : value -> string) (show_completed : bool) (p : process)
    (l : list TodoItem) :
  fst (list_items show_completed (mem p)) = Ok l ->
  l ≠ [] ->
  Forall renderable l ->
  ∃ lines,
    Forall2 (renders py_repr) l lines
    ∧ display_todos py_repr show_completed p
      = (Ok tt,
         mkProcess (mem p)
           (stdout p ++ [Print (String "010" "To-Do List:"); Print (str_mul "=" 50)]
                     ++ (Print <$> lines) ++ [Print (str_mul "=" 50)])).
Proof.
  rewrite list_items_eq. intros [= Hl] Hne Hall.
  destruct (renderable_all py_repr l Hall) as [lines Hlines].
  exists lines. split; [done|]. rewrite display_todos_eq, Hl.
  destruct l as [|x l']; [done|].
  unfold mbind, IO_bind, print at 1 2. cbn [mem stdout].
  rewrite (print_items_all py_repr _ lines) by done.
  unfold print. simpl. by rewrite <- !app_assoc.
Qed.

Lemma display_todos_all_witness :
  let a := mkTodoItem (VInt 1) (VStr "a") (VStr "") VNone (VInt 3) (VBool false) in
  let p := mkProcess (saved (mkTodoList [a] (VInt 2))) [] in
  ∃ lines,
    Forall2 (renders (fun _ => EmptyString)) [a] lines
    ∧ display_todos (fun _ => EmptyString) false p
      = (Ok tt,
         mkProcess (mem p)
           ([] ++ [Print (String "010" "To-Do List:"); Print (str_mul "=" 50)]
               ++ (Print <$> lines) ++ [Print (str_mul "=" 50)])).
Proof.
  intros a p.
  apply (display_todos_all (fun _ => EmptyString) false p [a] eq_refl).
  - done.
  - repeat constructor. exists 3. by split.
Defined.

(** When an item to show cannot be rendered, [display_todos] raises at that
    item, with [KeyError] or [TypeError]: the heading, the rule and the items
    before it are already printed, the closing rule and the items after it
    never are. *)
Theorem display_todos_stops
    (py_repr : value -> string) (show_completed : bool) (p : process)
    (l1 l2 : list TodoItem) (x : TodoItem) :
  fst (list_items show_completed (mem p)) = Ok (l1 ++ x :: l2) ->
  Forall renderable l1 ->
  ¬ renderable x ->
  ∃ lines e,
    Forall2 (renders py_repr) l1 lines
    ∧ (e = KeyError ∨ e = TypeError)
    ∧ display_todos py_repr show_completed p
      = (Raise e,
         mkProcess (mem p)
           (stdout p ++ [Print (String "010" "To-Do List:"); Print (str_mul "=" 50)]
                     ++ (Print <$> lines))).
Proof.
  rewrite list_items_eq. intros [= Hl] Hall Hx.
  destruct (renderable_all py_repr l1 Hall) as [lines Hlines].
  destruct (not_renderable_raises py_repr x Hx) as (e & He & Hkind).
  exists lines, e. split_and!; [done..|]. rewrite display_todos_eq, Hl.
  destruct (l1 ++ x :: l2) as [|y l'] eqn:Heq; [by destruct l1|]. rewrite <- Heq.
  unfold mbind, IO_bind, print at 1 2. cbn [mem stdout].
  rewrite (print_items_until py_repr l1 l2 x lines e) by done.
  simpl. by rewrite <- !app_assoc.
Qed.

Lemma display_todos_stops_witness :
  let a := mkTodoItem (VInt 1) (VStr "tax") (VStr "") VNone (VInt 7) (VBool false) in
  let p := mkProcess (saved (mkTodoList [a] (VInt 2))) [] in
  ∃ lines e,
    Forall2 (renders (fun _ => EmptyString)) [] lines
    ∧ (e = KeyError ∨ e = TypeError)
    ∧ display_todos (fun _ => EmptyString) true p
      = (Raise e,
         mkProcess (mem p)
           ([] ++ [Print (String "010" "To-Do List:"); Print (str_mul "=" 50)]
               ++ (Print <$> lines))).
Proof.
  intros a p.
  apply (display_todos_stops (fun _ => EmptyString) true p [] [] a eq_refl).
  - constructor.
  - intros (q & Hq & Heq). unfold py_eq_int, a, priority in Heq.
    apply Z.eqb_eq in Heq. lia.
Defined.

(** ** The program *)

Section Main.
Context (py_repr : value -> string) (strptime_ok : string -> bool).

Lemma print_items_mem (l : list TodoItem) (p : process) :
  mem (snd (print_items py_repr l p)) = mem p.
Proof.
  revert p. induction l as [|item l IH]; intros p; [done|].
  cbn [print_items]. unfold mbind at 1, IO_bind at 1, lift_io.
  destruct (__str__ py_repr item); [|done].
  unfold mbind at 1, IO_bind at 1, print. by rewrite IH.
Qed.

Lemma display_todos_mem (show_completed : bool) (p : process) :
  mem (snd (display_todos py_repr show_completed p)) = mem p.
Proof.
  rewrite display_todos_eq. destruct (if show_completed then _ else _) as [|x l]; [done|].
  unfold mbind, IO_bind, print at 1 2.
  pose proof (print_items_mem (x :: l)
                (mkProcess (mem p)
                   ((stdout p ++ [Print (String "010" "To-Do List:")])
                    ++ [Print (str_mul "=" 50)]))) as Hmem.
  cbn [mem stdout]. destruct (print_items _ _ _) as [[[]|e] p']; simpl in *; done.
Qed.

Lemma main_eq (args : command) (d : option file) :
  main py_repr strptime_ok args d
  = match new_TodoList d with
    | (Raise e, w) => (Raise e, mkProcess w [])
    | (Ok _, w) =>
        match dispatch py_repr strptime_ok args (mkProcess w []) with
        | (Raise e, p) => (Ok tt, mkProcess (mem p) (stdout p ++ [PrintError e]))
        | (Ok _, p) => (Ok tt, p)
        end
    end.
Proof. reflexivity. Qed.


(** Listing and viewing never write: after [main] with [list] or [view] the
    file is what it was, whether the command printed its items, found
    nothing, or failed while rendering. *)
Theorem main_list_view_read_only (args : command) (d : option file) :
  (∃ all, args = CmdList all) ∨ (∃ i, args = CmdView i) ->
  disk (mem (snd (main py_repr strptime_ok args d))) = d.
Proof.
  intros Hargs. rewrite main_eq. destruct (constructor_outcome d) as [Hdisk _].
  destruct (new_TodoList d) as [[[]|e'] w]; simpl in *; [|done].
  assert (Hmem : mem (snd (dispatch py_repr strptime_ok args (mkProcess w []))) = w).
  { destruct Hargs as [[all ->]|[i ->]]; simpl.
    - apply display_todos_mem.
    - unfold mbind at 1, IO_bind at 1, call_method. rewrite get_item_eq. simpl.
      destruct (snd <$> list_find (has_id i) (todos (self w))) as [item|]; [|done].
      unfold mbind, IO_bind, print, lift_io. simpl.
      by destruct (__str__ py_repr item). }
  destruct (dispatch _ _ _ _) as [[[]|e''] p]; simpl in *; by subst.
Qed.

End Main.


Lemma main_list_view_read_only_witness :
  disk (mem (snd (main (fun _ => EmptyString) (fun _ => true) (CmdView 1) (Some (Json urgent)))))
  = Some (Json urgent).
Proof.
  apply (main_list_view_read_only (fun _ => EmptyString) (fun _ => true)
           (CmdView 1) (Some (Json urgent))).
  right. by exists 1.
Defined.

(** [complete], [remove] and [view] with an id that no item of the loaded
    list has print the one line "Error: Item with ID <id> not found." and
    return; the list and the file are as the constructor left them. *)
Theorem main_not_found
    (py_repr : value -> string) (strptime_ok : string -> bool)
    (args : command) (i : Z) (d : option file) (w : world) :
  args = CmdComplete i ∨ args = CmdRemove i ∨ args = CmdView i ->
  new_TodoList d = (Ok tt, w) ->
  ¬ Exists (has_id i) (todos (self w)) ->
  main py_repr strptime_ok args d
  = (Ok tt, mkProcess w [Print ("Error: Item with ID " +:+ decimal i +:+ " not found.")]).
Proof.
  intros Hargs Hnew Hno%not_Exists_absent. rewrite main_eq, Hnew.
  destruct Hargs as [-> | [-> | ->]]; cbn [dispatch];
    unfold mbind at 1, IO_bind at 1, call_method; cbn [mem stdout].
  - by rewrite complete_item_eq, find_none.
  - by rewrite remove_item_eq, find_none.
  - by rewrite get_item_eq, find_none.
Qed.

Lemma main_not_found_witness :
  main (fun _ => EmptyString) (fun _ => true) (CmdRemove 4) None
  = (Ok tt, mkProcess (mkWorld blank None)
              [Print ("Error: Item with ID " +:+ decimal 4 +:+ " not found.")]).
Proof.
  apply (main_not_found (fun _ => EmptyString) (fun _ => true) (CmdRemove 4) 4 None
           (mkWorld blank None)).
  - right. by left.
  - reflexivity.
  - by inversion 1.
Defined.

(** [add] with a due date that is not empty and that [strptime] rejects
    prints "Error: Invalid date format. Please use YYYY-MM-DD." and returns:
    no item is added, the counter does not move and the file is not
    written. *)
Theorem main_add_invalid_date
    (py_repr : value -> string) (strptime_ok : string -> bool)
    (t desc s : string) (prio : Z) (d : option file) (w : world) :
  new_TodoList d = (Ok tt, w) ->
  s ≠ EmptyString ->
  strptime_ok s = false ->
  main py_repr strptime_ok (CmdAdd t desc (Some s) prio) d
  = (Ok tt, mkProcess w [Print "Error: Invalid date format. Please use YYYY-MM-DD."]).
Proof.
  intros Hnew Hs Hbad. rewrite main_eq, Hnew. simpl. rewrite Hbad.
  destruct s; [done|]. done.
Qed.

Lemma main_add_invalid_date_witness :
  main (fun _ => EmptyString) (fun s => String.eqb s "2024-01-31")
       (CmdAdd "milk" "" (Some "tomorrow") 1) None
  = (Ok tt, mkProcess (mkWorld blank None)
              [Print "Error: Invalid date format. Please use YYYY-MM-DD."]).
Proof.
  by apply (main_add_invalid_date (fun _ => EmptyString)
              (fun s => String.eqb s "2024-01-31") "milk" "" "tomorrow" 1 None
              (mkWorld blank None)).
Defined.

(** [add] on a loaded list whose counter is the integer n, with no due date,
    an empty one (which is not checked and is stored as it is) or one that
    [strptime] accepts: the item gets the id n and is appended, the counter
    becomes n + 1, the file is rewritten with the new list, and the one line
    printed is "Added new todo item (ID: n): <title>". *)
Theorem main_add
    (py_repr : value -> string) (strptime_ok : string -> bool)
    (t desc : string) (due : option string) (prio n : Z)
    (d : option file) (w : world) :
  new_TodoList d = (Ok tt, w) ->
  next_id (self w) = VInt n ->
  due = None ∨ due = Some EmptyString ∨ (∃ s, due = Some s ∧ strptime_ok s = true) ->
  let item := mkTodoItem (VInt n) (VStr t) (VStr desc) (from_option VStr VNone due)
                         (VInt prio) (VBool false) in
  main py_repr strptime_ok (CmdAdd t desc due prio) d
  = (Ok tt,
     mkProcess (saved (mkTodoList (todos (self w) ++ [item]) (VInt (n + 1))))
       [Print ("Added new todo item (ID: " +:+ decimal n +:+ "): " +:+ t)]).
Proof.
  intros Hnew Hn Hdue item. rewrite main_eq, Hnew. cbn [dispatch].
  assert (Hvalid : match due with
                   | Some s => truthy (VStr s) && negb (strptime_ok s)
                   | None => false
                   end = false).
  { destruct Hdue as [-> | [-> | (s & -> & Hs)]]; [done..|].
    rewrite Hs. apply andb_false_r. }
  rewrite Hvalid. unfold mbind, IO_bind, call_method. cbn [mem stdout].
  by rewrite (add_item_counter w n _ _ _ _ Hn).
Qed.

Lemma main_add_witness :
  let item := mkTodoItem (VInt 1) (VStr "milk") (VStr "") (VStr "") (VInt 1) (VBool false) in
  main (fun _ => EmptyString) (fun _ => false) (CmdAdd "milk" "" (Some "") 1) (Some Garbage)
  = (Ok tt,
     mkProcess (saved (mkTodoList [item] (VInt 2)))
       [Print ("Added new todo item (ID: " +:+ decimal 1 +:+ "): " +:+ "milk")]).
Proof.
  intros item.
  apply (main_add (fun _ => EmptyString) (fun _ => false) "milk" "" (Some EmptyString)
           1 1 (Some Garbage) (mkWorld blank (Some Garbage))).
  - reflexivity.
  - reflexivity.
  - right. by left.
Defined.



(** [complete] and [remove] with an id that some item of the loaded list has
    act on the first such item, rewrite the file with the new list, and
    print the one line "Marked item <id> as completed." or
    "Removed item with ID <id>.". *)
Theorem main_found
    (py_repr : value -> string) (strptime_ok : string -> bool)
    (i : Z) (d : option file) (w : world) (l1 l2 : list TodoItem) (x : TodoItem) :
  new_TodoList d = (Ok tt, w) ->
  todos (self w) = l1 ++ x :: l2 -> absent i l1 -> has_id i x ->
  main py_repr strptime_ok (CmdComplete i) d
  = (Ok tt,
     mkProcess (saved (mkTodoList (l1 ++ set_completed x :: l2) (next_id (self w))))
       [Print ("Marked item " +:+ decimal i +:+ " as completed.")])
  ∧ main py_repr strptime_ok (CmdRemove i) d
    = (Ok tt,
       mkProcess (saved (mkTodoList (l1 ++ l2) (next_id (self w))))
         [Print ("Removed item with ID " +:+ decimal i +:+ ".")]).
Proof.
  intros Hnew Hl Hl1 Hx. rewrite !main_eq, Hnew. simpl.
  unfold mbind, IO_bind, call_method. simpl.
  rewrite (complete_item_first w i l1 l2 x), (remove_item_first w i l1 l2 x) by done.
  done.
Qed.

Lemma main_found_witness :
  let first := mkTodoItem (VInt 1) (VStr "first") (VStr "") VNone (VInt 3) (VBool false) in
  let second := mkTodoItem (VInt 1) (VStr "second") (VStr "") VNone (VInt 3) (VBool false) in
  main (fun _ => EmptyString) (fun _ => true) (CmdRemove 1) (Some (Json twins))
  = (Ok tt,
     mkProcess (saved (mkTodoList [second] (VInt 3)))
       [Print ("Removed item with ID " +:+ decimal 1 +:+ ".")]).
Proof.
  intros first second.
  destruct (main_found (fun _ => EmptyString) (fun _ => true) 1 (Some (Json twins))
              (mkWorld (mkTodoList [first; second] (VInt 3)) (Some (Json twins)))
              [] [second] first eq_refl eq_refl (Forall_nil_2 _) eq_refl)
    as [_ Hremove].
  exact Hremove.
Defined.
